(** * GitBar: the dmgbuild settings module [dmg-settings.py]

    The repository is one Python module that dmgbuild executes to obtain
    the layout of the GitBar disk image.  The module is a straight-line
    sequence of two imports and fourteen assignments; two of the assigned
    values are read from the process environment.

    The development models the module the way it is written: a Python
    value type, the module namespace as a finite map from names to values,
    an error monad for the exceptions an expression can raise, and the
    module body as the list of its statements, executed in order. *)

From Stdlib Require Import ZArith String Ascii List.
From stdpp Require Import base option gmap strings list fin_maps.

Local Open Scope string_scope.
Local Open Scope Z_scope.

Module DmgSettings.

(** ** Python values *)

#[local] Set Warnings "-register-all,-clear-no-such-hyp".

(** The values the module builds.  A dict keeps its entries in insertion
    order; every dict of the module has string keys. *)
Inductive value : Type :=
  | VNone
  | VInt (z : Z)
  | VStr (s : string)
  | VTuple (items : list value)
  | VList (items : list value)
  | VDict (entries : list (string * value))
  | VModule (name : string).

(** ** Exceptions and the error monad *)

Inductive exn : Type :=
  | NameError (name : string)
  | AttributeError (attr : string)
  | TypeError (what : string).

Inductive result (A : Type) : Type :=
  | Ok (a : A)
  | Raise (e : exn).
Arguments Ok {A} a.
Arguments Raise {A} e.

#[global] Instance result_ret : MRet result := fun A a => Ok a.
#[global] Instance result_bind : MBind result := fun A B f r =>
  match r with
  | Ok a => f a
  | Raise e => Raise e
  end.

(** ** String helpers of the Python library *)

Definition sep : ascii := "/"%char.

(** [str.startswith(sep)] *)
Definition startswith_sep (s : string) : bool :=
  match s with
  | String c _ => Ascii.eqb c sep
  | EmptyString => false
  end.

(** [str.endswith(sep)] *)
Fixpoint endswith_sep (s : string) : bool :=
  match s with
  | EmptyString => false
  | String c EmptyString => Ascii.eqb c sep
  | String _ rest => endswith_sep rest
  end.

(** One round of the loop of [posixpath.join]: [b] replaces the path when
    it is absolute, is appended directly when the path is empty or already
    ends with the separator, and is appended after a separator otherwise. *)
Definition join_step (path b : string) : string :=
  if startswith_sep b then b
  else if orb (String.eqb path "") (endswith_sep path) then path ++ b
  else path ++ String sep b.

(** [posixpath.join(a, *p)] on strings. *)
Definition posix_join (a : string) (p : list string) : string :=
  fold_left join_step p a.

(** [posixpath.basename(p)]: the part of [p] after its last separator.
    [acc] is the component read so far; it is dropped at each separator. *)
Fixpoint basename_from (acc p : string) : string :=
  match p with
  | EmptyString => acc
  | String c rest =>
      if Ascii.eqb c sep then basename_from "" rest
      else basename_from (acc ++ String c "") rest
  end.

Definition basename (p : string) : string := basename_from "" p.

(** ** The namespace and the library calls the module makes *)

(** The process environment, [os.environ]: names to strings. *)
Abbreviation environ := (gmap string string).

(** The module namespace: the names bound so far. *)
Abbreviation namespace := (gmap string value).

(** Reading a global name; an unbound name raises [NameError]. *)
Definition load (g : namespace) (name : string) : result value :=
  match g !! name with
  | Some v => Ok v
  | None => Raise (NameError name)
  end.

(** [m.environ.get(key, default)]: the variable's value when the
    environment has it, [default] otherwise; never a [KeyError].  The
    receiver has to be the [os] module. *)
Definition environ_get (m : value) (env : environ) (key : string)
    (default : value) : result value :=
  match m with
  | VModule "os" =>
      match env !! key with
      | Some v => Ok (VStr v)
      | None => Ok default
      end
  | _ => Raise (AttributeError "environ")
  end.

Definition as_str (v : value) : result string :=
  match v with
  | VStr s => Ok s
  | _ => Raise (TypeError "expected str, bytes or os.PathLike object")
  end.

(** [m.path.join(a, b)]: both arguments have to be strings. *)
Definition os_path_join (m a b : value) : result value :=
  match m with
  | VModule "os" =>
      a' ← as_str a;
      b' ← as_str b;
      Ok (VStr (posix_join a' [b']))
  | _ => Raise (AttributeError "path")
  end.

(** Storing a key of a dict display: a key already present keeps its
    position and takes the new value. *)
Fixpoint dict_set (k : string) (v : value) (d : list (string * value))
    : list (string * value) :=
  match d with
  | [] => [(k, v)]
  | (k', v') :: rest =>
      if String.eqb k k' then (k, v) :: rest else (k', v') :: dict_set k v rest
  end.

(** A dict display [{k1: v1, ..., kn: vn}], entries stored left to right. *)
Definition dict_display (kvs : list (string * value)) : value :=
  VDict (fold_left (fun d kv => dict_set kv.1 kv.2 d) kvs []).

(** ** Statements and their execution *)

(** The module has two kinds of statement: [import m] and [x = e].  The
    right-hand side of an assignment is evaluated in the namespace of the
    statements before it. *)
Inductive stmt : Type :=
  | Import (name : string)
  | Assign (target : string) (rhs : namespace → result value).

(** The name a statement binds. *)
Definition target_of (s : stmt) : string :=
  match s with
  | Import name => name
  | Assign target _ => target
  end.

Definition exec_stmt (g : namespace) (s : stmt) : result namespace :=
  match s with
  | Import name => Ok (<[name := VModule name]> g)
  | Assign target rhs => v ← rhs g; Ok (<[target := v]> g)
  end.

Fixpoint exec_stmts (body : list stmt) (g : namespace) : result namespace :=
  match body with
  | [] => Ok g
  | s :: rest => g' ← exec_stmt g s; exec_stmts rest g'
  end.

(** ** The module *)

Notation "x ::= e" := (Assign x e) (at level 60, no associativity).

(** [dmg-settings.py], statement by statement. *)
Definition module_body (env : environ) : list stmt :=
  [ Import "os";
    Import "sys";
    "app_path" ::= (λ g, os ← load g "os";
                         environ_get os env "APP_PATH" (VStr "build/Release/GitBar.app"));
    "dmg_resources" ::= (λ g, os ← load g "os";
                              environ_get os env "DMG_RESOURCES" (VStr "dmg-resources"));
    "volume_name" ::= (λ _, Ok (VStr "GitBar"));
    "format" ::= (λ _, Ok (VStr "UDBZ"));
    "size" ::= (λ _, Ok VNone);
    "files" ::= (λ g, a ← load g "app_path"; Ok (VList [a]));
    "symlinks" ::= (λ _, Ok (dict_display [("Applications", VStr "/Applications")]));
    "icon" ::= (λ g, os ← load g "os";
                     d ← load g "dmg_resources";
                     os_path_join os d (VStr "AppIcon.icns"));
    "background" ::= (λ g, os ← load g "os";
                           d ← load g "dmg_resources";
                           os_path_join os d (VStr "background.png"));
    "window_rect" ::= (λ _, Ok (VTuple [VTuple [VInt 200; VInt 120];
                                        VTuple [VInt 660; VInt 400]]));
    "icon_size" ::= (λ _, Ok (VInt 100));
    "icon_locations" ::= (λ _, Ok (dict_display
                             [("GitBar.app", VTuple [VInt 180; VInt 200]);
                              ("Applications", VTuple [VInt 480; VInt 200])]));
    "hide_extension" ::= (λ _, Ok (VList [VStr "GitBar.app"]));
    "text_size" ::= (λ _, Ok (VInt 12)) ].

(** Evaluating the module under an environment: the body runs from the
    empty namespace (the names the interpreter itself provides, such as
    [__name__], are left out). *)
Definition exec_module (env : environ) : result namespace :=
  exec_stmts (module_body env) ∅.

(** ** The values the module binds, as functions of the environment *)

(** [os.environ.get(key, default)] when the default is a string. *)
Definition getenv (env : environ) (key dflt : string) : string :=
  match env !! key with
  | Some v => v
  | None => dflt
  end.

Definition app_path (env : environ) : string :=
  getenv env "APP_PATH" "build/Release/GitBar.app".

Definition dmg_resources (env : environ) : string :=
  getenv env "DMG_RESOURCES" "dmg-resources".

Definition icon (env : environ) : string :=
  posix_join (dmg_resources env) ["AppIcon.icns"].

Definition background (env : environ) : string :=
  posix_join (dmg_resources env) ["background.png"].

(** The bindings whose right-hand sides read neither the environment nor
    a name that does. *)
Definition constants : namespace :=
  list_to_map
    [ ("os", VModule "os");
      ("sys", VModule "sys");
      ("volume_name", VStr "GitBar");
      ("format", VStr "UDBZ");
      ("size", VNone);
      ("symlinks", VDict [("Applications", VStr "/Applications")]);
      ("window_rect", VTuple [VTuple [VInt 200; VInt 120];
                              VTuple [VInt 660; VInt 400]]);
      ("icon_size", VInt 100);
      ("icon_locations", VDict [("GitBar.app", VTuple [VInt 180; VInt 200]);
                                ("Applications", VTuple [VInt 480; VInt 200])]);
      ("hide_extension", VList [VStr "GitBar.app"]);
      ("text_size", VInt 12) ].

(** The namespace the module leaves behind. *)
Definition module_globals (env : environ) : namespace :=
  <["app_path" := VStr (app_path env)]>
    (<["dmg_resources" := VStr (dmg_resources env)]>
       (<["files" := VList [VStr (app_path env)]]>
          (<["icon" := VStr (icon env)]>
             (<["background" := VStr (background env)]> constants)))).

(** The names of the module that depend on the environment. *)
Definition env_dependent : list string :=
  ["app_path"; "dmg_resources"; "files"; "icon"; "background"].

(** ** The schema of the disk-image tool, as the specification lists it *)

(** volume name, format, file list, symlink map, icon path, background
    path, window rectangle, icon size, icon-location map, hidden-extension
    list, text size: the module's names for them. *)
Definition schema_names : list string :=
  [ "volume_name"; "format"; "files"; "symlinks"; "icon"; "background";
    "window_rect"; "icon_size"; "icon_locations"; "hide_extension";
    "text_size" ].

(** ** Shapes of values *)

Definition is_str (v : value) : bool :=
  match v with VStr _ => true | _ => false end.

Definition is_int (v : value) : bool :=
  match v with VInt _ => true | _ => false end.

(** A two-element tuple whose components have the given shapes. *)
Definition is_pair_of (p q : value → bool) (v : value) : bool :=
  match v with
  | VTuple [a; b] => p a && q b
  | _ => false
  end.

(** A list whose items all have the given shape. *)
Definition is_list_of (p : value → bool) (v : value) : bool :=
  match v with
  | VList items => forallb p items
  | _ => false
  end.

(** A dict (string keys) whose values all have the given shape. *)
Definition is_dict_of (p : value → bool) (v : value) : bool :=
  match v with
  | VDict entries => forallb (λ kv, p kv.2) entries
  | _ => false
  end.

Definition is_coord : value → bool := is_pair_of is_int is_int.
Definition is_rect : value → bool := is_pair_of is_coord is_coord.

(** A name of the namespace bound to a value of a given shape. *)
Definition has_shape (g : namespace) (name : string) (p : value → bool) : Prop :=
  ∃ v, g !! name = Some v ∧ p v = true.

(** The keys of a dict, in order. *)
Definition keys (entries : list (string * value)) : list string :=
  entries.*1.

(** The directory part [posixpath.join] puts before a relative name:
    [d] itself when it is empty or ends with the separator, [d] and a
    separator otherwise. *)
Definition join_dir (d : string) : string :=
  if orb (String.eqb d "") (endswith_sep d) then d else d ++ String sep "".

(** ** Layout geometry *)

(** An icon of side [sz] centred at [(x, y)] lies inside a window of
    width [w] and height [h]. *)
Definition inside_window (w h sz x y : Z) : Prop :=
  0 ≤ x - sz / 2 ∧ x + sz / 2 ≤ w ∧ 0 ≤ y - sz / 2 ∧ y + sz / 2 ≤ h.

(** ** Statement lists *)

(** The statements of [body] that do not bind [name]. *)
Definition without (name : string) (body : list stmt) : list stmt :=
  filter (λ s, target_of s ≠ name) body.

(** ** Sample environments *)

(** Neither variable set. *)
Definition env_unset : environ := ∅.

(** Both variables set, as a build job would. *)
Definition env_ci : environ :=
  {[ "APP_PATH" := "dist/Other.app"; "DMG_RESOURCES" := "ci/resources/" ]}.

(** Both variables set to the empty string. *)
Definition env_empty : environ :=
  {[ "APP_PATH" := ""; "DMG_RESOURCES" := "" ]}.

(** [env_unset] with an unrelated variable. *)
Definition env_home : environ := {[ "HOME" := "/Users/runner" ]}.

(** ** Execution of statement lists *)

Lemma exec_stmts_app (pre post : list stmt) (g : namespace) :
  exec_stmts (pre ++ post) g = g' ← exec_stmts pre g; exec_stmts post g'.
Proof.
  revert g. induction pre as [|s pre IH]; intros g; simpl; [done|].
  destruct (exec_stmt g s) as [g'|e]; simpl; [apply IH | done].
Qed.

Lemma exec_stmt_insert (g g' : namespace) (s : stmt) :
  exec_stmt g s = Ok g' → ∃ v, g' = <[target_of s := v]> g.
Proof.
  destruct s as [name|target rhs]; simpl.
  - intros [= <-]. eauto.
  - destruct (rhs g) as [v|e]; simpl; [|done]. intros [= <-]. eauto.
Qed.

(** Running statements binds exactly their targets. *)
Lemma exec_stmts_dom (body : list stmt) (g g' : namespace) :
  exec_stmts body g = Ok g' →
  dom g' = dom g ∪ list_to_set (target_of <$> body).
Proof.
  revert g. induction body as [|s body IH]; intros g; simpl.
  - intros [= <-]. set_solver.
  - destruct (exec_stmt g s) as [g1|e] eqn:Hs; simpl; [|done].
    intros Hrest. apply exec_stmt_insert in Hs as [v ->].
    rewrite (IH _ Hrest), dom_insert_L. set_solver.
Qed.

(** Statements with pairwise distinct, fresh targets only add bindings:
    what was bound before stays bound to the same value. *)
Lemma exec_stmts_mono (body : list stmt) (g g' : namespace) :
  NoDup (target_of <$> body) →
  (∀ s, s ∈ body → target_of s ∉ dom g) →
  exec_stmts body g = Ok g' →
  g ⊆ g'.
Proof.
  revert g. induction body as [|s body IH]; intros g Hnd Hfresh; simpl.
  - by intros [= <-].
  - destruct (exec_stmt g s) as [g1|e] eqn:Hs; simpl; [|done].
    intros Hrest. apply exec_stmt_insert in Hs as [v ->].
    rewrite fmap_cons in Hnd. apply NoDup_cons in Hnd as [Hnotin Hnd].
    trans (<[target_of s := v]> g).
    + apply insert_subseteq, not_elem_of_dom, Hfresh. left.
    + apply IH; [done| |done].
      intros s' Hs'. rewrite dom_insert_L.
      apply not_elem_of_union; split.
      * apply not_elem_of_singleton. intros Heq. apply Hnotin.
        rewrite <- Heq. by apply list_elem_of_fmap_2.
      * apply Hfresh. by right.
Qed.

(** ** The namespace of the module *)

Lemma module_targets (env : environ) :
  target_of <$> module_body env =
  [ "os"; "sys"; "app_path"; "dmg_resources"; "volume_name"; "format";
    "size"; "files"; "symlinks"; "icon"; "background"; "window_rect";
    "icon_size"; "icon_locations"; "hide_extension"; "text_size" ].
Proof. reflexivity. Qed.

Lemma module_targets_NoDup (env : environ) :
  NoDup (target_of <$> module_body env).
Proof. rewrite module_targets. apply (bool_decide_unpack _). by vm_compute. Qed.

(** The module runs to completion and leaves [module_globals] behind. *)
Lemma exec_module_globals (env : environ) :
  exec_module env = Ok (module_globals env).
Proof.
  unfold exec_module, module_globals, module_body, icon, background,
    app_path, dmg_resources, getenv, environ_get.
  generalize (env !! "APP_PATH") (env !! "DMG_RESOURCES").
  intros [a|] [d|]; vm_compute; reflexivity.
Qed.

Lemma constants_lookup (name : string) (v : value) :
  constants !! name = Some v → name ∉ env_dependent.
Proof.
  intros Hc Hin. unfold env_dependent in Hin.
  repeat (apply elem_of_cons in Hin as [->|Hin]; [by vm_compute in Hc|]).
  by apply elem_of_nil in Hin.
Qed.

Lemma module_globals_constant (env : environ) (name : string) :
  name ∉ env_dependent → module_globals env !! name = constants !! name.
Proof.
  unfold env_dependent, module_globals. intros Hn.
  rewrite !lookup_insert_ne; [done|..]; intros <-; apply Hn; set_solver.
Qed.

Lemma module_globals_dom (env : environ) :
  dom (module_globals env) =
  list_to_set (schema_names ++ ["size"; "app_path"; "dmg_resources"; "os"; "sys"]).
Proof.
  unfold module_globals. rewrite !dom_insert_L.
  replace (dom constants) with
    (list_to_set (C := gset string)
       ["os"; "sys"; "volume_name"; "format"; "size"; "symlinks";
        "window_rect"; "icon_size"; "icon_locations"; "hide_extension";
        "text_size"]) by (by vm_compute).
  unfold schema_names. set_solver.
Qed.

(** A closed proposition settled by evaluating its decision procedure. *)
Ltac by_evaluation := apply (bool_decide_unpack _); vm_compute; exact I.

(** A lookup of a name that does not depend on the environment. *)
Ltac constant_lookup :=
  rewrite module_globals_constant by by_evaluation; reflexivity.

Lemma lookup_app_path (env : environ) :
  module_globals env !! "app_path" = Some (VStr (app_path env)).
Proof. apply lookup_insert_eq. Qed.

Lemma lookup_dmg_resources (env : environ) :
  module_globals env !! "dmg_resources" = Some (VStr (dmg_resources env)).
Proof. unfold module_globals. by rewrite lookup_insert_ne by done; rewrite lookup_insert_eq. Qed.

Lemma lookup_files (env : environ) :
  module_globals env !! "files" = Some (VList [VStr (app_path env)]).
Proof. unfold module_globals. by rewrite !lookup_insert_ne by done; rewrite lookup_insert_eq. Qed.

Lemma lookup_icon (env : environ) :
  module_globals env !! "icon" = Some (VStr (icon env)).
Proof. unfold module_globals. by rewrite !lookup_insert_ne by done; rewrite lookup_insert_eq. Qed.

Lemma lookup_background (env : environ) :
  module_globals env !! "background" = Some (VStr (background env)).
Proof. unfold module_globals. by rewrite !lookup_insert_ne by done; rewrite lookup_insert_eq. Qed.

Lemma getenv_set (env : environ) (key dflt v : string) :
  env !! key = Some v → getenv env key dflt = v.
Proof. unfold getenv. by intros ->. Qed.

Lemma getenv_unset (env : environ) (key dflt : string) :
  env !! key = None → getenv env key dflt = dflt.
Proof. unfold getenv. by intros ->. Qed.

(** [getenv] reads the environment at its key only. *)
Lemma getenv_agree (env1 env2 : environ) (key dflt : string) :
  env1 !! key = env2 !! key → getenv env1 key dflt = getenv env2 key dflt.
Proof. unfold getenv. by intros ->. Qed.

(** The namespace depends on the environment through the two variables only. *)
Lemma module_globals_agree (env1 env2 : environ) :
  env1 !! "APP_PATH" = env2 !! "APP_PATH" →
  env1 !! "DMG_RESOURCES" = env2 !! "DMG_RESOURCES" →
  module_globals env1 = module_globals env2.
Proof.
  intros Ha Hd. unfold module_globals, icon, background, app_path, dmg_resources.
  by rewrite (getenv_agree env1 env2 "APP_PATH" _ Ha),
    (getenv_agree env1 env2 "DMG_RESOURCES" _ Hd).
Qed.

(** Every prefix of the module runs to completion, and what it has bound
    is still bound, to the same value, when the module ends. *)
Lemma exec_prefix (env : environ) (n : nat) :
  ∃ g, exec_stmts (take n (module_body env)) ∅ = Ok g ∧ g ⊆ module_globals env.
Proof.
  pose proof (exec_module_globals env) as Hrun. unfold exec_module in Hrun.
  pose proof (module_targets_NoDup env) as Hnd.
  rewrite <- (take_drop n (module_body env)) in Hrun, Hnd.
  rewrite exec_stmts_app in Hrun. rewrite fmap_app in Hnd.
  apply NoDup_app in Hnd as (_ & Hdisj & Hnd).
  destruct (exec_stmts (take n (module_body env)) ∅) as [g|e] eqn:Hpre;
    simpl in Hrun; [|done].
  exists g. split; [done|].
  apply (exec_stmts_mono (drop n (module_body env))); [done| |done].
  intros s Hs Hin. apply exec_stmts_dom in Hpre.
  rewrite Hpre, dom_empty_L, (left_id_L ∅ (∪)), elem_of_list_to_set in Hin.
  apply (Hdisj _ Hin). by apply list_elem_of_fmap_2.
Qed.

(** ** The two environment variables *)

(** C1: for every environment the module binds [app_path] to the value of
    APP_PATH when the variable is set and to 'build/Release/GitBar.app'
    when it is unset, and binds [dmg_resources] to the value of
    DMG_RESOURCES when set and to 'dmg-resources' when unset. *)
Theorem env_paths_set_or_default (env : environ) :
  ∃ g, exec_module env = Ok g ∧
    (∀ v, env !! "APP_PATH" = Some v → g !! "app_path" = Some (VStr v)) ∧
    (env !! "APP_PATH" = None →
       g !! "app_path" = Some (VStr "build/Release/GitBar.app")) ∧
    (∀ v, env !! "DMG_RESOURCES" = Some v →
       g !! "dmg_resources" = Some (VStr v)) ∧
    (env !! "DMG_RESOURCES" = None →
       g !! "dmg_resources" = Some (VStr "dmg-resources")).
Proof.
  exists (module_globals env). split; [apply exec_module_globals|].
  rewrite lookup_app_path, lookup_dmg_resources. unfold app_path, dmg_resources.
  repeat split.
  - intros v Hv. by rewrite (getenv_set _ _ _ _ Hv).
  - intros Hv. by rewrite (getenv_unset _ _ _ Hv).
  - intros v Hv. by rewrite (getenv_set _ _ _ _ Hv).
  - intros Hv. by rewrite (getenv_unset _ _ _ Hv).
Qed.

(** C1 at an environment that sets both variables and at one that sets
    neither. *)
Lemma env_paths_set_or_default_witness :
  (∃ g, exec_module env_ci = Ok g ∧
     g !! "app_path" = Some (VStr "dist/Other.app") ∧
     g !! "dmg_resources" = Some (VStr "ci/resources/")) ∧
  (∃ g, exec_module env_unset = Ok g ∧
     g !! "app_path" = Some (VStr "build/Release/GitBar.app") ∧
     g !! "dmg_resources" = Some (VStr "dmg-resources")).
Proof.
  split.
  - destruct (env_paths_set_or_default env_ci) as (g & Hg & Ha & _ & Hd & _).
    exists g. split; [exact Hg|].
    split; [apply Ha | apply Hd]; vm_compute; reflexivity.
  - destruct (env_paths_set_or_default env_unset) as (g & Hg & _ & Ha & _ & Hd).
    exists g. split; [exact Hg|].
    split; [apply Ha | apply Hd]; vm_compute; reflexivity.
Defined.

(** C2, as stated, fails: the two path variables are not the only names
    that vary with the environment.  With DMG_RESOURCES set, [icon] is
    bound to another value than with the variable unset. *)
Lemma derived_settings_vary :
  ¬ (∀ (env1 env2 : environ) (g1 g2 : namespace) (name : string),
       exec_module env1 = Ok g1 → exec_module env2 = Ok g2 →
       name ≠ "app_path" → name ≠ "dmg_resources" →
       g1 !! name = g2 !! name).
Proof.
  intros H.
  specialize (H env_unset env_ci _ _ "icon"
                (exec_module_globals _) (exec_module_globals _)).
  rewrite !lookup_icon in H. vm_compute in H.
  by specialize (H ltac:(done) ltac:(done)).
Qed.

(** C2, amended: [app_path] and [dmg_resources] are read from APP_PATH
    and DMG_RESOURCES; [files] is computed from the first and [icon] and
    [background] from the second, so these five names, and only they, vary
    with the environment: [app_path] and [files] are fixed by APP_PATH
    alone, [dmg_resources], [icon] and [background] by DMG_RESOURCES
    alone, some pair of environments tells each of the five apart, and
    every other name (volume name, format, size, symlink map, window
    rectangle, icon size, icon-location map, hidden-extension list, text
    size, the two imports) is bound to the same value under any two
    environments. *)
Theorem env_dependence :
  (∀ env1 env2 : environ,
     ∃ g1 g2, exec_module env1 = Ok g1 ∧ exec_module env2 = Ok g2 ∧
       (∀ name, name ∉ env_dependent → g1 !! name = g2 !! name) ∧
       (env1 !! "APP_PATH" = env2 !! "APP_PATH" →
          g1 !! "app_path" = g2 !! "app_path" ∧
          g1 !! "files" = g2 !! "files") ∧
       (env1 !! "DMG_RESOURCES" = env2 !! "DMG_RESOURCES" →
          g1 !! "dmg_resources" = g2 !! "dmg_resources" ∧
          g1 !! "icon" = g2 !! "icon" ∧
          g1 !! "background" = g2 !! "background")) ∧
  (∃ g1 g2, exec_module env_unset = Ok g1 ∧ exec_module env_ci = Ok g2 ∧
     ∀ name, name ∈ env_dependent → g1 !! name ≠ g2 !! name).
Proof.
  split.
  - intros env1 env2. exists (module_globals env1), (module_globals env2).
    do 2 (split; [apply exec_module_globals|]).
    split; [|split].
    + intros name Hn. by rewrite !module_globals_constant.
    + intros Ha. rewrite !lookup_app_path, !lookup_files. unfold app_path.
      by rewrite (getenv_agree env1 env2 _ _ Ha).
    + intros Hd.
      rewrite !lookup_dmg_resources, !lookup_icon, !lookup_background.
      unfold icon, background, dmg_resources.
      by rewrite (getenv_agree env1 env2 _ _ Hd).
  - exists (module_globals env_unset), (module_globals env_ci).
    do 2 (split; [apply exec_module_globals|]).
    intros name Hin. unfold env_dependent in Hin.
    repeat (apply elem_of_cons in Hin as [->|Hin]; [by vm_compute|]).
    by apply elem_of_nil in Hin.
Qed.

(** C2 amended, at two environments that differ in an unrelated variable
    only. *)
Lemma env_dependence_witness :
  ∃ g1 g2, exec_module env_unset = Ok g1 ∧ exec_module env_home = Ok g2 ∧
    g1 !! "files" = g2 !! "files" ∧
    g1 !! "icon" = g2 !! "icon" ∧
    g1 !! "background" = g2 !! "background".
Proof.
  destruct (proj1 env_dependence env_unset env_home)
    as (g1 & g2 & H1 & H2 & _ & Ha & Hd).
  exists g1, g2. split; [exact H1|]. split; [exact H2|].
  split; [apply Ha | apply Hd]; vm_compute; reflexivity.
Defined.

(** ** The names the module defines *)

(** C3, as stated, fails: the module binds [size], which is not one of
    the eleven names of the schema. *)
Lemma size_outside_schema :
  ¬ (∀ (env : environ) (g : namespace), exec_module env = Ok g →
       (∀ name, name ∈ schema_names → is_Some (g !! name)) ∧
       (∀ name, is_Some (g !! name) → name ∈ schema_names)).
Proof.
  intros H.
  destruct (H env_unset _ (exec_module_globals _)) as [_ Hout].
  assert (Hsize : "size" ∈ schema_names).
  { apply Hout. exists VNone. constant_lookup. }
  revert Hsize. by_evaluation.
Qed.

(** C3, amended: the module defines each of the eleven names of the
    schema; the names it defines outside the schema are the volume-size
    setting [size], the two path variables [app_path] and [dmg_resources]
    and the two imported modules [os] and [sys], and no others. *)
Theorem module_defines_schema (env : environ) :
  ∃ g, exec_module env = Ok g ∧
    (∀ name, name ∈ schema_names → is_Some (g !! name)) ∧
    (∀ name, is_Some (g !! name) ↔
       name ∈ schema_names ∨
       name ∈ ["size"; "app_path"; "dmg_resources"; "os"; "sys"]).
Proof.
  exists (module_globals env). split; [apply exec_module_globals|].
  assert (Hdom : ∀ name, is_Some (module_globals env !! name) ↔
            name ∈ schema_names ∨
            name ∈ ["size"; "app_path"; "dmg_resources"; "os"; "sys"]).
  { intros name.
    by rewrite <- elem_of_dom, module_globals_dom, elem_of_list_to_set,
      elem_of_app. }
  split; [|exact Hdom]. intros name Hn. apply Hdom. by left.
Qed.

(** C3 amended, at one name of the schema. *)
Lemma module_defines_schema_witness :
  ∃ g, exec_module env_unset = Ok g ∧ is_Some (g !! "window_rect").
Proof.
  destruct (module_defines_schema env_unset) as (g & Hg & Hin & _).
  exists g. split; [exact Hg|]. apply Hin. by_evaluation.
Defined.

(** ** The values the module defines *)

(** C4: for every environment the volume name and the format are strings,
    the file list is a list of strings (paths), the symlink map sends names
    to strings (paths), the icon and background paths are strings, the
    window rectangle is a pair of integer pairs (position, size), the icon
    size and the text size are integers, the icon-location map sends names
    to integer pairs, and the hidden-extension setting is a list of
    strings (file names). *)
Theorem settings_shapes (env : environ) :
  ∃ g, exec_module env = Ok g ∧
    has_shape g "volume_name" is_str ∧
    has_shape g "format" is_str ∧
    has_shape g "files" (is_list_of is_str) ∧
    has_shape g "symlinks" (is_dict_of is_str) ∧
    has_shape g "icon" is_str ∧
    has_shape g "background" is_str ∧
    has_shape g "window_rect" is_rect ∧
    has_shape g "icon_size" is_int ∧
    has_shape g "icon_locations" (is_dict_of is_coord) ∧
    has_shape g "hide_extension" (is_list_of is_str) ∧
    has_shape g "text_size" is_int.
Proof.
  exists (module_globals env). split; [apply exec_module_globals|].
  unfold has_shape.
  repeat split;
    first
      [ eexists; split; [apply lookup_files|reflexivity]
      | eexists; split; [apply lookup_icon|reflexivity]
      | eexists; split; [apply lookup_background|reflexivity]
      | eexists; split; [constant_lookup|reflexivity] ].
Qed.

(** C5: for every environment the symlink map has exactly one entry,
    'Applications', whose target is '/Applications'. *)
Theorem symlinks_applications (env : environ) :
  ∃ g, exec_module env = Ok g ∧
    g !! "symlinks" = Some (VDict [("Applications", VStr "/Applications")]).
Proof.
  exists (module_globals env). split; [apply exec_module_globals|].
  constant_lookup.
Qed.

(** C8: for every environment the file list has exactly one entry, the
    value bound to [app_path]: the value of APP_PATH when the variable is
    set, 'build/Release/GitBar.app' otherwise. *)
Theorem files_single_app_path (env : environ) :
  ∃ g p, exec_module env = Ok g ∧
    g !! "files" = Some (VList [VStr p]) ∧
    g !! "app_path" = Some (VStr p) ∧
    (∀ v, env !! "APP_PATH" = Some v → p = v) ∧
    (env !! "APP_PATH" = None → p = "build/Release/GitBar.app").
Proof.
  exists (module_globals env), (app_path env).
  split; [apply exec_module_globals|].
  split; [apply lookup_files|]. split; [apply lookup_app_path|].
  unfold app_path. split.
  - intros v. apply getenv_set.
  - apply getenv_unset.
Qed.

(** C8 with APP_PATH set and with APP_PATH unset. *)
Lemma files_single_app_path_witness :
  (∃ g, exec_module env_ci = Ok g ∧
     g !! "files" = Some (VList [VStr "dist/Other.app"])) ∧
  (∃ g, exec_module env_unset = Ok g ∧
     g !! "files" = Some (VList [VStr "build/Release/GitBar.app"])).
Proof.
  split.
  - destruct (files_single_app_path env_ci) as (g & p & Hg & Hf & _ & Hset & _).
    exists g. split; [exact Hg|].
    rewrite Hf, (Hset "dist/Other.app"); [reflexivity|vm_compute; reflexivity].
  - destruct (files_single_app_path env_unset) as (g & p & Hg & Hf & _ & _ & Hun).
    exists g. split; [exact Hg|].
    rewrite Hf, Hun; [reflexivity|vm_compute; reflexivity].
Defined.

(** C10: for every environment the module binds [size], a name outside
    the eleven names of the schema, to [None]. *)
Theorem size_is_none (env : environ) :
  ∃ g, exec_module env = Ok g ∧
    g !! "size" = Some VNone ∧ "size" ∉ schema_names.
Proof.
  exists (module_globals env). split; [apply exec_module_globals|].
  split; [constant_lookup | by_evaluation].
Qed.

(** ** Items placed in the image *)

(** C9, as stated, fails: with APP_PATH set to 'dist/Other.app' the single
    file entry has basename 'Other.app', which is not a key of the
    icon-location map. *)
Lemma icon_keys_not_file_basename :
  ¬ (∀ (env : environ) (g : namespace) (f : string)
       (links locs : list (string * value)),
       exec_module env = Ok g →
       g !! "files" = Some (VList [VStr f]) →
       g !! "symlinks" = Some (VDict links) →
       g !! "icon_locations" = Some (VDict locs) →
       ∀ k, k ∈ keys locs ↔ k = basename f ∨ k ∈ keys links).
Proof.
  intros H.
  specialize (H env_ci _ "dist/Other.app"
                [("Applications", VStr "/Applications")]
                [("GitBar.app", VTuple [VInt 180; VInt 200]);
                 ("Applications", VTuple [VInt 480; VInt 200])]
                (exec_module_globals _)).
  assert (Hk : "Other.app" ∈ ["GitBar.app"; "Applications"]).
  { apply H; [by rewrite lookup_files|constant_lookup|constant_lookup|].
    left. reflexivity. }
  revert Hk. by_evaluation.
Qed.

(** C9, amended: for every environment the keys of the icon-location map
    are exactly 'GitBar.app' and 'Applications', and every entry of the
    hidden-extension list is one of these keys; the keys are the basename
    of the single file entry together with the single symlink name
    whenever that basename is 'GitBar.app', which is the case when
    APP_PATH is unset. *)
Theorem icon_locations_keys (env : environ) :
  ∃ g f links locs hidden, exec_module env = Ok g ∧
    g !! "files" = Some (VList [VStr f]) ∧
    g !! "symlinks" = Some (VDict links) ∧
    g !! "icon_locations" = Some (VDict locs) ∧
    g !! "hide_extension" = Some (VList hidden) ∧
    keys locs = ["GitBar.app"; "Applications"] ∧
    (∀ h, h ∈ hidden → ∃ name, h = VStr name ∧ name ∈ keys locs) ∧
    (basename f = "GitBar.app" →
       ∀ k, k ∈ keys locs ↔ k = basename f ∨ k ∈ keys links) ∧
    (env !! "APP_PATH" = None → basename f = "GitBar.app").
Proof.
  exists (module_globals env), (app_path env),
    [("Applications", VStr "/Applications")],
    [("GitBar.app", VTuple [VInt 180; VInt 200]);
     ("Applications", VTuple [VInt 480; VInt 200])],
    [VStr "GitBar.app"].
  split; [apply exec_module_globals|].
  split; [apply lookup_files|].
  do 3 (split; [constant_lookup|]).
  split; [reflexivity|]. split; [|split].
  - intros h Hh. apply list_elem_of_singleton in Hh as ->.
    exists "GitBar.app". split; [done|]. by_evaluation.
  - intros Hb k. rewrite Hb. unfold keys. simpl.
    rewrite elem_of_cons, !list_elem_of_singleton. tauto.
  - intros Hun. unfold app_path. by rewrite (getenv_unset _ _ _ Hun).
Qed.

(** C9 amended, with APP_PATH unset: 'GitBar.app', the basename of the
    default application path, is a key of the icon-location map. *)
Lemma icon_locations_keys_witness :
  ∃ g locs, exec_module env_unset = Ok g ∧
    g !! "files" = Some (VList [VStr "build/Release/GitBar.app"]) ∧
    g !! "icon_locations" = Some (VDict locs) ∧
    "GitBar.app" ∈ keys locs.
Proof.
  destruct (icon_locations_keys env_unset)
    as (g & f & links & locs & hidden & Hg & Hf & _ & Hl & _ & _ & _ & Hb & Hun).
  assert (Hbase : basename f = "GitBar.app") by (apply Hun; reflexivity).
  pose proof (exec_module_globals env_unset) as Hrun.
  rewrite Hg in Hrun. injection Hrun as ->.
  rewrite lookup_files in Hf. injection Hf as <-.
  exists (module_globals env_unset), locs.
  split; [exact Hg|]. split; [apply lookup_files|]. split; [exact Hl|].
  apply (Hb Hbase). left. by symmetry.
Defined.

(** ** Exceptions *)

(** The model does raise: the statements from [files = [app_path]] on,
    run without the ones before them, stop with a [NameError]. *)
Example files_needs_app_path :
  exec_stmts (drop 7 (module_body env_unset)) ∅ = Raise (NameError "app_path").
Proof. reflexivity. Qed.

(** With both variables set to the empty string the two joined paths are
    the bare file names. *)
Example empty_variables :
  exec_module env_empty = Ok (module_globals env_empty) ∧
  module_globals env_empty !! "files" = Some (VList [VStr ""]) ∧
  module_globals env_empty !! "icon" = Some (VStr "AppIcon.icns") ∧
  module_globals env_empty !! "background" = Some (VStr "background.png").
Proof. split; [apply exec_module_globals|]. by vm_compute. Qed.

(** C6: for every environment (variables absent, present or empty alike)
    evaluating the module raises no exception: the module runs to its end,
    and so does each of its prefixes, so no statement takes an error
    branch. *)
Theorem module_never_raises (env : environ) :
  (∃ g, exec_module env = Ok g) ∧
  (∀ n, ∃ g, exec_stmts (take n (module_body env)) ∅ = Ok g) ∧
  (∀ e, exec_module env ≠ Raise e).
Proof.
  split; [|split].
  - eexists. apply exec_module_globals.
  - intros n. destruct (exec_prefix env n) as (g & Hg & _). by exists g.
  - intros e. by rewrite exec_module_globals.
Qed.

(** ** Determinism and absence of state *)

(** C7: two evaluations of the module under environments that agree (on
    APP_PATH and DMG_RESOURCES, so in particular under identical
    environments) leave identical namespaces; no name is the target of two
    statements, and a binding made by a prefix of the module is still
    there, with the same value, when the module ends. *)
Theorem module_deterministic_stateless (env1 env2 : environ) :
  (env1 = env2 → exec_module env1 = exec_module env2) ∧
  (env1 !! "APP_PATH" = env2 !! "APP_PATH" →
   env1 !! "DMG_RESOURCES" = env2 !! "DMG_RESOURCES" →
   exec_module env1 = exec_module env2) ∧
  NoDup (target_of <$> module_body env1) ∧
  (∀ n, ∃ g g', exec_stmts (take n (module_body env1)) ∅ = Ok g ∧
     exec_module env1 = Ok g' ∧ g ⊆ g').
Proof.
  assert (Hagree : env1 !! "APP_PATH" = env2 !! "APP_PATH" →
            env1 !! "DMG_RESOURCES" = env2 !! "DMG_RESOURCES" →
            exec_module env1 = exec_module env2).
  { intros Ha Hd. rewrite !exec_module_globals.
    by rewrite (module_globals_agree env1 env2 Ha Hd). }
  split; [|split; [exact Hagree|split]].
  - intros Heq. apply Hagree; by rewrite Heq.
  - apply module_targets_NoDup.
  - intros n. destruct (exec_prefix env1 n) as (g & Hg & Hsub).
    exists g, (module_globals env1).
    split; [exact Hg|]. split; [apply exec_module_globals|exact Hsub].
Qed.

(** C7 at two environments that differ in an unrelated variable. *)
Lemma module_deterministic_stateless_witness :
  exec_module env_unset = exec_module env_home ∧
  exec_module env_ci = exec_module env_ci.
Proof.
  split.
  - apply (proj1 (proj2 (module_deterministic_stateless env_unset env_home)));
      vm_compute; reflexivity.
  - apply (proj1 (module_deterministic_stateless env_ci env_ci)). reflexivity.
Defined.

(** ** Joined paths *)

Lemma string_app_assoc (a b c : string) : (a ++ b) ++ c = a ++ b ++ c.
Proof.
  induction a as [|x a IH]; [done|].
  change (String x ((a ++ b) ++ c) = String x (a ++ b ++ c)). by f_equal.
Qed.

Lemma endswith_sep_snoc (d : string) : endswith_sep (d ++ String sep "") = true.
Proof.
  induction d as [|c d IH]; [done|].
  simpl. destruct (d ++ String sep "") eqn:Hd; [|exact IH].
  by destruct d.
Qed.

(** Joining a relative file name [b] to [d] puts [join_dir d] before it. *)
Lemma posix_join_relative (d b : string) :
  startswith_sep b = false → posix_join d [b] = join_dir d ++ b.
Proof.
  intros Hb. unfold posix_join, join_step, join_dir. simpl. rewrite Hb.
  destruct (String.eqb d "" || endswith_sep d); [done|].
  by rewrite string_app_assoc.
Qed.

(** [join_dir d] is [d], followed by a separator unless [d] is empty or
    already ends with one; it is empty or ends with a separator. *)
Lemma join_dir_cases (d : string) :
  (join_dir d = d ∨ join_dir d = d ++ "/") ∧
  (join_dir d = d ↔ d = "" ∨ endswith_sep d = true) ∧
  (join_dir d = "" ∨ endswith_sep (join_dir d) = true).
Proof.
  unfold join_dir. destruct d as [|c d]; [simpl; naive_solver|].
  simpl String.eqb. cbn [orb].
  destruct (endswith_sep (String c d)) eqn:Hend; [naive_solver|].
  split; [by right|]. split; [|right; apply endswith_sep_snoc].
  split; [|naive_solver].
  intros Heq. exfalso.
  pose proof (endswith_sep_snoc (String c d)) as Hs.
  rewrite Heq in Hs. congruence.
Qed.

(** After a directory part that ends with a separator, the basename is
    the basename of what follows. *)
Lemma basename_from_after_sep (dir b acc : string) :
  endswith_sep dir = true →
  basename_from acc (dir ++ b) = basename_from "" b.
Proof.
  revert acc. induction dir as [|c dir IH]; intros acc Hend; [done|].
  destruct dir as [|c' dir].
  - simpl in Hend. simpl. by rewrite Hend.
  - change (endswith_sep (String c (String c' dir)))
      with (endswith_sep (String c' dir)) in Hend.
    change (String c (String c' dir) ++ b)
      with (String c (String c' dir ++ b)).
    cbn [basename_from]. destruct (Ascii.eqb c sep); by apply IH.
Qed.

(** X1: for every environment, whatever DMG_RESOURCES holds, the file
    name of the icon path is 'AppIcon.icns' and the file name of the
    background path is 'background.png'. *)
Theorem resource_basenames (env : environ) :
  ∃ g i b, exec_module env = Ok g ∧
    g !! "icon" = Some (VStr i) ∧
    g !! "background" = Some (VStr b) ∧
    basename i = "AppIcon.icns" ∧
    basename b = "background.png".
Proof.
  exists (module_globals env), (icon env), (background env).
  split; [apply exec_module_globals|].
  split; [apply lookup_icon|]. split; [apply lookup_background|].
  unfold icon, background, basename.
  rewrite !posix_join_relative by done.
  destruct (join_dir_cases (dmg_resources env)) as (_ & _ & [->|Hend]); [done|].
  by rewrite !basename_from_after_sep.
Qed.

(** X2: for every environment the icon path and the background path are
    the two file names after one and the same directory part; that part
    is the value of [dmg_resources], followed by a separator unless it is
    empty or already ends with one, so the directory is never dropped and
    no separator is doubled. *)
Theorem resources_share_directory (env : environ) :
  ∃ g d dir, exec_module env = Ok g ∧
    g !! "dmg_resources" = Some (VStr d) ∧
    g !! "icon" = Some (VStr (dir ++ "AppIcon.icns")) ∧
    g !! "background" = Some (VStr (dir ++ "background.png")) ∧
    (dir = d ∨ dir = d ++ "/") ∧
    (dir = d ↔ d = "" ∨ endswith_sep d = true).
Proof.
  exists (module_globals env), (dmg_resources env),
    (join_dir (dmg_resources env)).
  split; [apply exec_module_globals|].
  split; [apply lookup_dmg_resources|].
  rewrite lookup_icon, lookup_background. unfold icon, background.
  rewrite !posix_join_relative by done.
  destruct (join_dir_cases (dmg_resources env)) as (Hdir & Hiff & _).
  done.
Qed.

(** X3: a variable that is set to the empty string is not replaced by
    its default.  With APP_PATH empty the single file entry is the empty
    path; with DMG_RESOURCES empty the icon and background paths are the
    bare file names, relative to the working directory. *)
Theorem empty_variables_kept (env : environ) :
  ∃ g, exec_module env = Ok g ∧
    (env !! "APP_PATH" = Some "" → g !! "files" = Some (VList [VStr ""])) ∧
    (env !! "DMG_RESOURCES" = Some "" →
       g !! "icon" = Some (VStr "AppIcon.icns") ∧
       g !! "background" = Some (VStr "background.png")).
Proof.
  exists (module_globals env). split; [apply exec_module_globals|].
  rewrite lookup_files, lookup_icon, lookup_background.
  unfold icon, background, app_path, dmg_resources. split.
  - intros Ha. by rewrite (getenv_set _ _ _ _ Ha).
  - intros Hd. by rewrite (getenv_set _ _ _ _ Hd).
Qed.

(** X3 at the environment with both variables empty. *)
Lemma empty_variables_kept_witness :
  ∃ g, exec_module env_empty = Ok g ∧
    g !! "files" = Some (VList [VStr ""]) ∧
    g !! "icon" = Some (VStr "AppIcon.icns").
Proof.
  destruct (empty_variables_kept env_empty) as (g & Hg & Ha & Hd).
  exists g. split; [exact Hg|]. split.
  - apply Ha. vm_compute. reflexivity.
  - apply Hd. vm_compute. reflexivity.
Defined.

(** X4: with DMG_RESOURCES unset the icon path is
    'dmg-resources/AppIcon.icns' and the background path is
    'dmg-resources/background.png', whatever else the environment
    holds. *)
Theorem resources_default (env : environ) :
  env !! "DMG_RESOURCES" = None →
  ∃ g, exec_module env = Ok g ∧
    g !! "icon" = Some (VStr "dmg-resources/AppIcon.icns") ∧
    g !! "background" = Some (VStr "dmg-resources/background.png").
Proof.
  intros Hd. exists (module_globals env). split; [apply exec_module_globals|].
  rewrite lookup_icon, lookup_background.
  unfold icon, background, dmg_resources.
  by rewrite (getenv_unset _ _ _ Hd).
Qed.

(** X4 at an environment that sets an unrelated variable only. *)
Lemma resources_default_witness :
  ∃ g, exec_module env_home = Ok g ∧
    g !! "icon" = Some (VStr "dmg-resources/AppIcon.icns") ∧
    g !! "background" = Some (VStr "dmg-resources/background.png").
Proof. apply (resources_default env_home). vm_compute. reflexivity. Defined.

(** ** Window layout *)

(** X5: for every environment the layout is the centred one of the
    module's comments: the icon-location map places two icons at one
    height, half the window height, and at abscissas symmetric about the
    window centre; each icon, of the configured icon size, lies inside the
    window, and the two icons do not overlap. *)
Theorem layout_centred (env : environ) :
  ∃ g pos w h sz n1 x1 y1 n2 x2 y2, exec_module env = Ok g ∧
    g !! "window_rect" = Some (VTuple [pos; VTuple [VInt w; VInt h]]) ∧
    g !! "icon_size" = Some (VInt sz) ∧
    g !! "icon_locations" =
      Some (VDict [(n1, VTuple [VInt x1; VInt y1]);
                   (n2, VTuple [VInt x2; VInt y2])]) ∧
    y1 = y2 ∧ 2 * y1 = h ∧ x1 + x2 = w ∧
    inside_window w h sz x1 y1 ∧ inside_window w h sz x2 y2 ∧
    sz ≤ x2 - x1.
Proof.
  exists (module_globals env), (VTuple [VInt 200; VInt 120]), 660, 400, 100,
    "GitBar.app", 180, 200, "Applications", 480, 200.
  split; [apply exec_module_globals|].
  do 3 (split; [constant_lookup|]).
  unfold inside_window. by vm_compute.
Qed.

(** ** Imports *)

(** X6: [sys] is imported and never used: for every environment the
    module without [import sys] runs to the same namespace, less the name
    [sys]. *)
Theorem sys_import_unused (env : environ) :
  ∃ g, exec_module env = Ok g ∧
    exec_stmts (without "sys" (module_body env)) ∅ = Ok (delete "sys" g).
Proof.
  exists (module_globals env). split; [apply exec_module_globals|].
  unfold without, module_globals, module_body, icon, background,
    app_path, dmg_resources, getenv, environ_get.
  generalize (env !! "APP_PATH") (env !! "DMG_RESOURCES").
  intros [a|] [d|]; vm_compute; reflexivity.
Qed.

End DmgSettings.
